(** * The controller of the scientific calculator (scientificcalculator.py)

    A shallow embedding of [AdvancedCalculator]: the instance fields that
    carry calculator state become a record, every handler becomes a function
    from state to state, and [try ... except Exception] becomes a small
    exception monad that remembers the state a block had reached when it
    raised.  The widgets (frames, buttons, styles, hover bindings) are left
    out; what the handlers write to [display_var] and to the history list
    box is kept.

    Python's [eval], [str], [+] and [-] on the values [eval] returns belong
    to the host.  They are the fields of the class [Host]; every theorem
    about the controller holds for every host.  Each of the four may raise:
    [str] does on an integer of more decimal digits than the interpreter's
    limit (4300 unless configured otherwise). *)

From Stdlib Require Import String Ascii List ZArith Lia Bool Decimal DecimalString.
Import ListNotations.
Local Open Scope list_scope.
Local Open Scope string_scope.

(** ** The host interpreter *)

Class Host : Type := {
  (** the objects [eval] can return *)
  pyobj : Type;
  (** [eval(text, safe_dict, {})]; [None] when it raises an [Exception] *)
  py_eval : string -> option pyobj;
  (** [str(x)], also what an f-string writes for [{x}]; [None] when it
      raises *)
  py_str : pyobj -> option string;
  (** [x + y] and [x - y]; [None] when they raise *)
  py_add : pyobj -> pyobj -> option pyobj;
  py_sub : pyobj -> pyobj -> option pyobj;
  (** the integer [0] *)
  py_zero : pyobj
}.

(** ** Python's string operations, as the handlers use them *)

(** [if s:] on a string. *)
Definition truthy (s : string) : bool :=
  match s with
  | EmptyString => false
  | String _ _ => true
  end.

(** [s[:-1]] *)
Definition slice_to_last (s : string) : string :=
  substring 0 (String.length s - 1) s.

(** [s[1:]] *)
Definition slice_from_1 (s : string) : string :=
  substring 1 (String.length s - 1) s.

(** [a in b] on strings: [a] occurs in [b] (the empty string always does). *)
Definition str_in (a b : string) : bool :=
  match index 0 a b with
  | Some _ => true
  | None => false
  end.

Definition lower_ascii (c : ascii) : ascii :=
  let n := nat_of_ascii c in
  if (65 <=? n)%nat && (n <=? 90)%nat then ascii_of_nat (n + 32) else c.

(** [s.lower()] on ASCII text. *)
Fixpoint lower (s : string) : string :=
  match s with
  | EmptyString => EmptyString
  | String c r => String (lower_ascii c) (lower r)
  end.

(** ** [try ... except Exception] *)

Module Try.

(** What a block of statements comes to: it returns, or it raises, and
    then the assignments made before the raise stay: [reached] is the
    state at the raise. *)
Inductive block (S A : Type) : Type :=
| Returned (a : A)
| Raised (reached : S).

Arguments Returned {S A} a.
Arguments Raised {S A} reached.

Definition ret {S A : Type} (a : A) : block S A := Returned a.

Definition bind {S A B : Type} (m : block S A) (k : A -> block S B)
  : block S B :=
  match m with
  | Returned a => k a
  | Raised reached => Raised reached
  end.

(** A call of the host made in state [s]: [None] is a raised exception. *)
Definition call {S A : Type} (s : S) (r : option A) : block S A :=
  match r with
  | Some a => Returned a
  | None => Raised s
  end.

(** [try: body  except Exception: handler] *)
Definition try_except {S : Type} (body : block S S) (handler : S -> S) : S :=
  match body with
  | Returned s => s
  | Raised reached => handler reached
  end.

(** A handler without [try]: an exception leaves the handler, Tk reports
    it and goes on with the state as the handler left it. *)
Definition callback {S : Type} (body : block S S) : S :=
  match body with
  | Returned s => s
  | Raised reached => reached
  end.

End Try.

Notation "'let!' x ':=' m 'in' k" := (Try.bind m (fun x => k))
  (at level 10, x name, m at level 100, k at level 200).

(** ** The state of the controller *)

(** [self.angle_mode]: ["rad"] or ["deg"]. *)
Inductive angle : Type := Rad | Deg.

Section Controller.

Context {H : Host}.

(** What [display_var] holds: a text, or the object [calculate] handed to
    [display_var.set] (rendered by Tk). *)
Inductive shown : Type :=
| Text (t : string)
| Obj (v : pyobj).

Record state : Type := mkState {
  operator : string;          (* self.operator: current expression *)
  memory : pyobj;             (* self.memory *)
  last_result : pyobj;        (* self.last_result *)
  history : list string;      (* self.history *)
  angle_mode : angle;         (* self.angle_mode *)
  full_mode : bool;           (* self.full_mode *)
  display : shown;            (* self.display_var *)
  history_list : list string  (* the rows of self.history_list *)
}.

(** The state [__init__] builds. *)
Definition init : state :=
  {| operator := ""; memory := py_zero; last_result := py_zero;
     history := []; angle_mode := Rad; full_mode := true;
     display := Text ""; history_list := [] |}.

(** Attribute assignments. *)
Definition set_operator (x : string) (s : state) : state :=
  mkState x (memory s) (last_result s) (history s) (angle_mode s)
          (full_mode s) (display s) (history_list s).

Definition set_memory (x : pyobj) (s : state) : state :=
  mkState (operator s) x (last_result s) (history s) (angle_mode s)
          (full_mode s) (display s) (history_list s).

Definition set_last_result (x : pyobj) (s : state) : state :=
  mkState (operator s) (memory s) x (history s) (angle_mode s)
          (full_mode s) (display s) (history_list s).

Definition set_history (x : list string) (s : state) : state :=
  mkState (operator s) (memory s) (last_result s) x (angle_mode s)
          (full_mode s) (display s) (history_list s).

Definition set_angle_mode (x : angle) (s : state) : state :=
  mkState (operator s) (memory s) (last_result s) (history s) x
          (full_mode s) (display s) (history_list s).

Definition set_full_mode (x : bool) (s : state) : state :=
  mkState (operator s) (memory s) (last_result s) (history s) (angle_mode s)
          x (display s) (history_list s).

Definition set_display (x : shown) (s : state) : state :=
  mkState (operator s) (memory s) (last_result s) (history s) (angle_mode s)
          (full_mode s) x (history_list s).

Definition set_history_list (x : list string) (s : state) : state :=
  mkState (operator s) (memory s) (last_result s) (history s) (angle_mode s)
          (full_mode s) (display s) x.

(** [self.display_var.set(self.operator)] *)
Definition echo (s : state) : state := set_display (Text (operator s)) s.

(** The [except Exception:] branch shared by the handlers. *)
Definition on_error (s : state) : state :=
  set_operator "" (set_display (Text "Error") s).

(** ** The handlers *)

Definition toggle_mode (s : state) : state :=
  set_full_mode (negb (full_mode s)) s.

Definition toggle_angle_mode (s : state) : state :=
  match angle_mode s with
  | Rad => set_angle_mode Deg s
  | Deg => set_angle_mode Rad s
  end.

Definition append_to_operator (value : string) (s : state) : state :=
  let s :=
    if value =? "%" then set_operator (operator s ++ "/100") s
    else set_operator (operator s ++ value) s in
  echo s.

Definition is_trig (func : string) : bool :=
  (func =? "sin") || (func =? "cos") || (func =? "tan").

Definition append_function (func : string) (s : state) : state :=
  let s :=
    if is_trig func then
      match angle_mode s with
      | Deg => set_operator (operator s ++ "deg_" ++ func ++ "(") s
      | Rad => set_operator (operator s ++ "math." ++ func ++ "(") s
      end
    else if func =? "√" then set_operator (operator s ++ "math.sqrt(") s
    else set_operator (operator s ++ "math." ++ func ++ "(") s in
  echo s.

Definition append_constant (const_value : pyobj) (s : state) : state :=
  Try.callback
    (let! text := Try.call s (py_str const_value) in
     Try.ret (echo (set_operator (operator s ++ text) s))).

Definition append_ans (s : state) : state :=
  Try.callback
    (let! text := Try.call s (py_str (last_result s)) in
     Try.ret (echo (set_operator (operator s ++ text) s))).

Definition clear_all (s : state) : state :=
  set_display (Text "") (set_operator "" s).

Definition clear_entry (s : state) : state :=
  set_display (Text "") (set_operator "" s).

Definition backspace (s : state) : state :=
  echo (set_operator (slice_to_last (operator s)) s).

(** [f"{self.operator} = {result}"], [text] being what the f-string writes
    for [{result}]. *)
Definition history_entry (expression text : string) : string :=
  expression ++ " = " ++ text.

(** [history_list] exists from [__init__] on ([full_mode] starts [True]), so
    [hasattr(self, 'history_list')] holds and the row is inserted whenever
    [full_mode] is set.  [eval] raises before the first assignment; the
    f-string raises after [last_result] and the display are assigned and
    before the history is.  [str(result)] in the last line returns what the
    f-string wrote. *)
Definition calculate (s : state) : state :=
  Try.try_except
    (let! result := Try.call s (py_eval (operator s)) in
     let s := set_last_result result s in
     let s := set_display (Obj result) s in
     let! text := Try.call s (py_str result) in
     let entry := history_entry (operator s) text in
     let s := set_history (history s ++ [entry]) s in
     let s :=
       if full_mode s then set_history_list (history_list s ++ [entry]) s
       else s in
     Try.ret (set_operator text s))
    on_error.

Definition memory_clear (s : state) : state :=
  set_display (Text "Memory Cleared") (set_memory py_zero s).

Definition memory_recall (s : state) : state :=
  Try.callback
    (let! text := Try.call s (py_str (memory s)) in
     Try.ret (echo (set_operator (operator s ++ text) s))).

(** [eval(self.operator, safe_dict, {}) if self.operator else 0] *)
Definition current_value (s : state) : option pyobj :=
  if truthy (operator s) then py_eval (operator s) else Some py_zero.

(** The f-string raises after [self.memory] is assigned. *)
Definition memory_add (s : state) : state :=
  Try.try_except
    (let! v := Try.call s (current_value s) in
     let! m := Try.call s (py_add (memory s) v) in
     let s := set_memory m s in
     let! text := Try.call s (py_str (memory s)) in
     let s := set_display (Text ("M: " ++ text)) s in
     Try.ret (set_operator "" s))
    on_error.

Definition memory_subtract (s : state) : state :=
  Try.try_except
    (let! v := Try.call s (current_value s) in
     let! m := Try.call s (py_sub (memory s) v) in
     let s := set_memory m s in
     let! text := Try.call s (py_str (memory s)) in
     let s := set_display (Text ("M: " ++ text)) s in
     Try.ret (set_operator "" s))
    on_error.

Definition plus_minus (s : state) : state :=
  if truthy (operator s) then
    Try.try_except
      (let! c := Try.call s (get 0 (operator s)) in
       let s :=
         if Ascii.eqb c "-" then set_operator (slice_from_1 (operator s)) s
         else set_operator ("-" ++ operator s) s in
       Try.ret (echo s))
      on_error
  else s.

(** [key_event]: [char] and [keysym] are the two fields of the Tk event. *)
Definition key_event (char keysym : string) (s : state) : state :=
  if str_in char "0123456789.+-*/()%" then append_to_operator char s
  else if keysym =? "Return" then calculate s
  else if keysym =? "BackSpace" then backspace s
  else if lower keysym =? "c" then clear_all s
  else s.

(** ** Events and runs *)

(** One user action: a button of either panel, the mode switch, or a key. *)
Inductive event : Type :=
| Press (value : string)        (* number pad, operators, '%' *)
| Function (func : string)      (* sin cos tan ln exp √ *)
| Constant (const_value : pyobj) (* π, e *)
| Ans
| ClearAll
| ClearEntry
| Backspace
| Equals
| MemoryClear
| MemoryRecall
| MemoryAdd
| MemorySubtract
| PlusMinus
| ToggleMode
| ToggleAngle
| Key (char keysym : string).

(** The handler bound to each event. *)
Definition handle (e : event) (s : state) : state :=
  match e with
  | Press value => append_to_operator value s
  | Function func => append_function func s
  | Constant c => append_constant c s
  | Ans => append_ans s
  | ClearAll => clear_all s
  | ClearEntry => clear_entry s
  | Backspace => backspace s
  | Equals => calculate s
  | MemoryClear => memory_clear s
  | MemoryRecall => memory_recall s
  | MemoryAdd => memory_add s
  | MemorySubtract => memory_subtract s
  | PlusMinus => plus_minus s
  | ToggleMode => toggle_mode s
  | ToggleAngle => toggle_angle_mode s
  | Key char keysym => key_event char keysym s
  end.

(** The event loop: each handler runs to completion before the next. *)
Fixpoint run (es : list event) (s : state) : state :=
  match es with
  | [] => s
  | e :: es' => run es' (handle e s)
  end.

(** ** What the properties speak about *)

(** The text typed by the keys [key_event] accepts, one token per key. *)
Definition input_alphabet : list string :=
  map (fun c => String c "") (list_ascii_of_string "0123456789.+-*/()%").

(** Whether an event runs [calculate]. *)
Definition evaluates (e : event) : bool :=
  match e with
  | Equals => true
  | Key char keysym =>
      negb (str_in char "0123456789.+-*/()%") && (keysym =? "Return")
  | _ => false
  end.

(** The successful evaluation an event performs in state [s], if any:
    [calculate] runs and nothing in its [try] block raises.  It is given
    as the buffer at that moment, the result and the result's text. *)
Definition evaluation (e : event) (s : state)
  : option (string * pyobj * string) :=
  if evaluates e then
    match py_eval (operator s) with
    | Some result =>
        match py_str result with
        | Some text => Some (operator s, result, text)
        | None => None
        end
    | None => None
    end
  else None.

(** The successful evaluations of a run, in order. *)
Fixpoint evaluations (es : list event) (s : state)
  : list (string * pyobj * string) :=
  match es with
  | [] => []
  | e :: es' =>
      match evaluation e s with
      | Some brt => brt :: evaluations es' (handle e s)
      | None => evaluations es' (handle e s)
      end
  end.

(** The history entry of a successful evaluation. *)
Definition entry_of (brt : string * pyobj * string) : string :=
  history_entry (fst (fst brt)) (snd brt).

(** What [eval] returns when an event runs [calculate] in state [s],
    whether or not the rest of the [try] block then raises. *)
Definition returned (e : event) (s : state) : option pyobj :=
  if evaluates e then py_eval (operator s) else None.

(** The objects [eval] returned to [calculate] over a run, in order. *)
Fixpoint all_returned (es : list event) (s : state) : list pyobj :=
  match es with
  | [] => []
  | e :: es' =>
      match returned e s with
      | Some result => result :: all_returned es' (handle e s)
      | None => all_returned es' (handle e s)
      end
  end.

(** Whether an event renders a trigonometric token into the buffer. *)
Definition renders_trig (e : event) : bool :=
  match e with
  | Function func => is_trig func
  | _ => false
  end.

(** Two states that differ at most in the angle mode. *)
Definition same_but_angle (s1 s2 : state) : Prop :=
  set_angle_mode Rad s1 = set_angle_mode Rad s2.

(** The buffers on which [plus_minus] twice gives the buffer back: those
    that do not begin with ['-'], and those that begin with one ['-']
    followed by a character other than ['-']. *)
Definition sign_toggles_back (b : string) : bool :=
  match b with
  | String "-" EmptyString => false
  | String "-" (String "-" _) => false
  | _ => true
  end.

End Controller.

(** ** A concrete host: integer arithmetic

    The hosts the theorems range over include Python's.  To run the
    controller on concrete buffers a host is needed that computes: this one
    evaluates sums, differences and products of decimal integers, with unary
    signs and parentheses, as Python does, and raises on every other text
    (["/"] is no token of it, so ["1/0"] raises here as it does in Python). *)

Module IntHost.

Local Open Scope char_scope.
Local Open Scope Z_scope.

Definition is_digit (c : ascii) : bool :=
  let n := nat_of_ascii c in ((48 <=? n) && (n <=? 57))%nat.

(** The longest run of digits at the front, and what follows it. *)
Fixpoint span_digits (cs : list ascii) : list ascii * list ascii :=
  match cs with
  | c :: r =>
      if is_digit c then
        let (ds, rest) := span_digits r in (c :: ds, rest)
      else ([], cs)
  | [] => ([], [])
  end.

Definition digit_value (c : ascii) : Z := Z.of_nat (nat_of_ascii c - 48).

Definition number (ds : list ascii) : Z :=
  fold_left (fun acc c => 10 * acc + digit_value c) ds 0.

(** A decimal literal: Python refuses a leading zero unless every digit
    is a zero. *)
Definition literal (ds : list ascii) : option Z :=
  match ds with
  | [] => None
  | "0" :: r => if forallb (Ascii.eqb "0") r then Some 0 else None
  | _ => Some (number ds)
  end.

(** Recursive descent: [expr] is a sum of [term]s, a [term] a product of
    [factor]s, a [factor] a signed factor, a parenthesis or a literal. *)
Fixpoint expr (fuel : nat) (cs : list ascii) : option (Z * list ascii) :=
  match fuel with
  | O => None
  | S f =>
      match term f cs with
      | Some (v, rest) => sums f v rest
      | None => None
      end
  end
with sums (fuel : nat) (v : Z) (cs : list ascii) : option (Z * list ascii) :=
  match fuel with
  | O => None
  | S f =>
      match cs with
      | "+" :: r =>
          match term f r with
          | Some (w, rest) => sums f (v + w) rest
          | None => None
          end
      | "-" :: r =>
          match term f r with
          | Some (w, rest) => sums f (v - w) rest
          | None => None
          end
      | _ => Some (v, cs)
      end
  end
with term (fuel : nat) (cs : list ascii) : option (Z * list ascii) :=
  match fuel with
  | O => None
  | S f =>
      match factor f cs with
      | Some (v, rest) => products f v rest
      | None => None
      end
  end
with products (fuel : nat) (v : Z) (cs : list ascii) : option (Z * list ascii) :=
  match fuel with
  | O => None
  | S f =>
      match cs with
      | "*" :: r =>
          match factor f r with
          | Some (w, rest) => products f (v * w) rest
          | None => None
          end
      | _ => Some (v, cs)
      end
  end
with factor (fuel : nat) (cs : list ascii) : option (Z * list ascii) :=
  match fuel with
  | O => None
  | S f =>
      match cs with
      | "-" :: r =>
          match factor f r with
          | Some (v, rest) => Some (- v, rest)
          | None => None
          end
      | "+" :: r => factor f r
      | "(" :: r =>
          match expr f r with
          | Some (v, ")" :: rest) => Some (v, rest)
          | _ => None
          end
      | _ =>
          let (ds, rest) := span_digits cs in
          match literal ds with
          | Some n => Some (n, rest)
          | None => None
          end
      end
  end.

Definition eval (text : string) : option Z :=
  let cs := list_ascii_of_string text in
  match expr (4 * List.length cs + 4) cs with
  | Some (v, []) => Some v
  | _ => None
  end.

(** The decimal digits of [z], after a ['-'] when it is negative. *)
Definition decimal (z : Z) : string := NilZero.string_of_int (Z.to_int z).

Definition count_digits (text : string) : nat :=
  match text with
  | String "-" digits => String.length digits
  | _ => String.length text
  end.

(** [str]: Python raises [ValueError] on an integer of more than 4300
    digits (the default of [sys.set_int_max_str_digits]). *)
Definition str (z : Z) : option string :=
  if (count_digits (decimal z) <=? 4300)%nat then Some (decimal z) else None.

Definition host : Host :=
  {| pyobj := Z;
     py_eval := eval;
     py_str := str;
     py_add := fun x y => Some (x + y);
     py_sub := fun x y => Some (x - y);
     py_zero := 0 |}.

(** The controller on this host, with [buffer] typed into a fresh
    calculator and [m] in the memory register. *)
Definition typed (buffer : string) (m : Z) : state (H := host) :=
  set_memory (H := host) m (set_operator (H := host) buffer (init (H := host))).

End IntHost.

(** ** The button panels and the widgets the handlers reconfigure *)

Section Window.

Context {H : Host}.

(** [math.pi] and [math.e], as the host's [math] module has them. *)
Variables math_pi math_e : pyobj.

(** The layout of [create_advanced_buttons], row by row. *)
Definition adv_buttons : list (list string) :=
  [ ["MC"; "MR"; "M+"; "M-"];
    ["CE"; "C"; "⌫"; "Rad"];
    ["sin"; "cos"; "tan"; "%"];
    ["ln"; "exp"; "√"; "Ans"];
    ["π"; "e"; ""; ""] ].


(** [char in (a, b, ...)] on a tuple of strings. *)
Definition in_tuple (char : string) (options : list string) : bool :=
  existsb (String.eqb char) options.

(** The texts of the buttons a layout creates, in creation order: the
    loops go row by row and [continue] on the placeholder [''] . *)
Definition created (layout : list (list string)) : list string :=
  filter (fun char => negb (char =? "")) (concat layout).

(** The command the chain of [create_advanced_buttons] configures for the
    button with text [char]; [None] when no branch matches, which leaves
    the button without a command. *)
Definition advanced_command (char : string) : option event :=
  if char =? "C" then Some ClearAll
  else if char =? "CE" then Some ClearEntry
  else if char =? "⌫" then Some Backspace
  else if char =? "MC" then Some MemoryClear
  else if char =? "MR" then Some MemoryRecall
  else if char =? "M+" then Some MemoryAdd
  else if char =? "M-" then Some MemorySubtract
  else if char =? "Rad" then Some ToggleAngle
  else if char =? "Ans" then Some Ans
  else if char =? "%" then Some (Press "%")
  else if in_tuple char ["sin"; "cos"; "tan"; "ln"; "exp"; "√"]
       then Some (Function char)
  else if in_tuple char ["π"; "e"]
       then Some (Constant (if char =? "π" then math_pi else math_e))
  else None.



(** The widgets [toggle_mode] and [toggle_angle_mode] reconfigure. *)
Record widgets : Type := mkWidgets {
  advanced_texts : list string;  (* text of each child of advanced_frame *)
  mode_toggle_text : string;     (* text of mode_toggle_btn *)
  advanced_column : option nat;  (* grid column of advanced_frame, if gridded *)
  basic_column : option nat;     (* grid column of basic_frame, if gridded *)
  history_packed : bool          (* history_frame is packed *)
}.

(** What [create_widgets] builds; [full_mode] is [True] when it runs. *)
Definition create_widgets : widgets :=
  {| advanced_texts := created adv_buttons;
     mode_toggle_text := "Switch to Compact Mode";
     advanced_column := Some 0;
     basic_column := Some 1;
     history_packed := true |}.

(** The loop of [toggle_angle_mode]: the first child whose text is "Rad" or
    "Deg" gets the text [new], and the loop breaks. *)
Fixpoint retext_first (new : string) (texts : list string) : list string :=
  match texts with
  | [] => []
  | text :: rest =>
      if in_tuple text ["Rad"; "Deg"] then new :: rest
      else text :: retext_first new rest
  end.

(** The controller with its widgets. *)
Definition window : Type := (state * widgets)%type.

(** [toggle_mode], widgets included: both panels leave the grid and the
    history frame is unpacked, then the panels of the new mode come back. *)
Definition window_toggle_mode (u : window) : window :=
  let (s, w) := u in
  let s := toggle_mode s in
  let w := mkWidgets (advanced_texts w) (mode_toggle_text w) None None false in
  if full_mode s then
    (s, mkWidgets (advanced_texts w) "Switch to Compact Mode"
                  (Some 0) (Some 1) true)
  else
    (s, mkWidgets (advanced_texts w) "Switch to Full Mode"
                  (advanced_column w) (Some 0) (history_packed w)).

(** [toggle_angle_mode], widgets included. *)
Definition window_toggle_angle_mode (u : window) : window :=
  let (s, w) := u in
  match angle_mode s with
  | Rad =>
      (set_angle_mode Deg s,
       mkWidgets (retext_first "Deg" (advanced_texts w)) (mode_toggle_text w)
                 (advanced_column w) (basic_column w) (history_packed w))
  | Deg =>
      (set_angle_mode Rad s,
       mkWidgets (retext_first "Rad" (advanced_texts w)) (mode_toggle_text w)
                 (advanced_column w) (basic_column w) (history_packed w))
  end.

(** The handler bound to each event, widgets included: only the two
    toggles touch widgets other than the display and the history list. *)
Definition window_handle (e : event) (u : window) : window :=
  match e with
  | ToggleMode => window_toggle_mode u
  | ToggleAngle => window_toggle_angle_mode u
  | _ => (handle e (fst u), snd u)
  end.

Fixpoint window_run (es : list event) (u : window) : window :=
  match es with
  | [] => u
  | e :: es' => window_run es' (window_handle e u)
  end.

(** The window [__init__] builds. *)
Definition init_window : window := (init, create_widgets).

(** ** What the further properties speak about *)

(** The events that only write at the end of the buffer. *)
Definition appends (e : event) : bool :=
  match e with
  | Press _ | Function _ | Constant _ | Ans | MemoryRecall => true
  | Key char _ => str_in char "0123456789.+-*/()%"
  | _ => false
  end.

(** The events bound to a memory handler that assigns [self.memory]. *)
Definition assigns_memory (e : event) : bool :=
  match e with
  | MemoryClear | MemoryAdd | MemorySubtract => true
  | _ => false
  end.

Definition is_toggle_mode (e : event) : bool :=
  match e with
  | ToggleMode => true
  | _ => false
  end.

Definition flip (a : angle) : angle :=
  match a with
  | Rad => Deg
  | Deg => Rad
  end.

(** The text the angle button shows in each mode. *)
Definition angle_text (a : angle) : string :=
  match a with
  | Rad => "Rad"
  | Deg => "Deg"
  end.

(** What the display may show next to the buffer: the buffer itself, the
    result whose text is the buffer, or one of the three messages. *)
Definition display_accounted (s : state) : Prop :=
  display s = Text (operator s) \/
  (display s = Obj (last_result s) /\
   py_str (last_result s) = Some (operator s)) \/
  (display s = Text "Error" /\ operator s = "") \/
  (exists text,
     py_str (memory s) = Some text /\
     display s = Text ("M: " ++ text) /\ operator s = "") \/
  (display s = Text "Memory Cleared" /\ memory s = py_zero).

End Window.

(** ** A host with one object that is no number

    [IntHost] with the empty tuple added: the text "()" evaluates to it,
    its text is "()", and adding it to or subtracting it from an integer
    raises (Python's [TypeError]). *)

Module TupleHost.

Local Open Scope Z_scope.

(** [Some n] is the integer [n]; [None] is the empty tuple. *)
Definition obj : Type := option Z.

Definition eval (text : string) : option obj :=
  if (text =? "()")%string then Some None
  else
    match IntHost.eval text with
    | Some n => Some (Some n)
    | None => None
    end.

Definition str (x : obj) : option string :=
  match x with
  | Some n => IntHost.str n
  | None => Some "()"
  end.

Definition add (x y : obj) : option obj :=
  match x, y with
  | Some a, Some b => Some (Some (a + b))
  | None, None => Some None
  | _, _ => None
  end.

Definition sub (x y : obj) : option obj :=
  match x, y with
  | Some a, Some b => Some (Some (a - b))
  | _, _ => None
  end.

Definition host : Host :=
  {| pyobj := obj;
     py_eval := eval;
     py_str := str;
     py_add := add;
     py_sub := sub;
     py_zero := Some 0 |}.

Definition typed (buffer : string) (m : Z) : state (H := host) :=
  set_memory (H := host) (Some m)
    (set_operator (H := host) buffer (init (H := host))).

End TupleHost.

(** * Properties *)

(** ** Strings *)

Lemma append_empty_r (a : string) : a ++ "" = a.
Proof.
  induction a as [|c a IH]; simpl; [reflexivity | now rewrite IH].
Qed.

Lemma append_assoc (a b c : string) : (a ++ b) ++ c = a ++ (b ++ c).
Proof.
  induction a as [|x a IH]; simpl; [reflexivity | now rewrite IH].
Qed.

Lemma length_append (a b : string) :
  String.length (a ++ b) = String.length a + String.length b.
Proof.
  induction a as [|x a IH]; simpl; [reflexivity | now rewrite IH].
Qed.

Lemma prefix_append (a b : string) : prefix a (a ++ b) = true.
Proof.
  induction a as [|x a IH]; simpl.
  - now destruct b.
  - destruct (ascii_dec x x) as [_|ne]; [exact IH | now elim ne].
Qed.

Lemma substring_front (a b : string) :
  substring 0 (String.length a) (a ++ b) = a.
Proof.
  induction a as [|x a IH]; simpl.
  - now destruct b.
  - now rewrite IH.
Qed.

Lemma substring_whole (a : string) : substring 0 (String.length a) a = a.
Proof.
  rewrite <- (append_empty_r a) at 2. apply substring_front.
Qed.

Lemma slice_to_last_empty : slice_to_last "" = "".
Proof. reflexivity. Qed.

Lemma slice_to_last_snoc (b : string) (c : ascii) :
  slice_to_last (b ++ String c "") = b.
Proof.
  unfold slice_to_last. rewrite length_append. simpl String.length.
  replace (String.length b + 1 - 1) with (String.length b) by lia.
  apply substring_front.
Qed.

Lemma slice_from_1_cons (c : ascii) (r : string) :
  slice_from_1 (String c r) = r.
Proof.
  unfold slice_from_1. simpl. rewrite Nat.sub_0_r. apply substring_whole.
Qed.

Lemma append_inv_head (a b c : string) : a ++ b = a ++ c -> b = c.
Proof.
  induction a as [|x a IH]; simpl; intros E; [exact E|].
  injection E as E. now apply IH.
Qed.

(** ** The handlers, field by field *)

Section Properties.

Context {H : Host}.

(** Unfolds the handlers and the assignments down to record fields. *)
Ltac fields :=
  unfold handle, key_event, calculate, memory_add, memory_subtract,
    memory_clear, memory_recall, plus_minus, append_to_operator,
    append_function,
    append_constant, append_ans, clear_all, clear_entry, backspace,
    toggle_mode, toggle_angle_mode, on_error, echo, current_value,
    history_entry, Try.try_except, Try.callback, Try.call, Try.bind, Try.ret,
    set_operator, set_memory, set_last_result, set_history, set_angle_mode,
    set_full_mode, set_display, set_history_list;
  cbn [operator memory last_result history angle_mode full_mode display
       history_list].


Lemma calculate_returns (s : state) (result : pyobj) (text : string) :
  py_eval (operator s) = Some result ->
  py_str result = Some text ->
  calculate s =
    {| operator := text;
       memory := memory s;
       last_result := result;
       history := history s ++ [operator s ++ " = " ++ text];
       angle_mode := angle_mode s;
       full_mode := full_mode s;
       display := Obj result;
       history_list :=
         if full_mode s
         then history_list s ++ [operator s ++ " = " ++ text]
         else history_list s |}.
Proof.
  intros E T. unfold calculate. rewrite E. fields. rewrite T.
  now destruct (full_mode s).
Qed.

Lemma calculate_writes_no_text (s : state) (result : pyobj) :
  py_eval (operator s) = Some result ->
  py_str result = None ->
  calculate s = on_error (set_last_result result s).
Proof.
  intros E T. unfold calculate. rewrite E. fields. now rewrite T.
Qed.

Lemma truthy_nonempty (b : string) : b <> "" -> truthy b = true.
Proof.
  destruct b; [now intros ne; elim ne | reflexivity].
Qed.

Lemma memory_add_raises (s : state) :
  current_value s = None \/
  (exists v, current_value s = Some v /\ py_add (memory s) v = None) ->
  memory_add s = on_error s.
Proof.
  unfold memory_add.
  intros [E | (v & E & A)]; rewrite E; simpl; [reflexivity | now rewrite A].
Qed.

Lemma memory_subtract_raises (s : state) :
  current_value s = None \/
  (exists v, current_value s = Some v /\ py_sub (memory s) v = None) ->
  memory_subtract s = on_error s.
Proof.
  unfold memory_subtract.
  intros [E | (v & E & A)]; rewrite E; simpl; [reflexivity | now rewrite A].
Qed.


(** C2 (as the code has it). A token of the input alphabet other than
    ['%'] is concatenated as it is to the end of the buffer; for ['%'] the
    text "/100" is concatenated instead.  Either way the previous buffer
    is a prefix of the new one, and the display echoes the new buffer. *)
Theorem append_extends_buffer (tok : string) (s : state) :
  In tok input_alphabet ->
  (tok <> "%" -> operator (append_to_operator tok s) = operator s ++ tok) /\
  (tok = "%" -> operator (append_to_operator tok s) = operator s ++ "/100") /\
  prefix (operator s) (operator (append_to_operator tok s)) = true /\
  display (append_to_operator tok s) =
    Text (operator (append_to_operator tok s)).
Proof.
  intros _. fields.
  destruct (String.eqb_spec tok "%") as [-> | ne]; cbn.
  - repeat split; [now intros ne; elim ne | apply prefix_append].
  - repeat split; [now intros e; elim ne | apply prefix_append].
Qed.

Lemma plus_minus_operator (s : state) :
  operator (plus_minus s) =
    match operator s with
    | "" => ""
    | String c r => if Ascii.eqb c "-" then r else String "-" (String c r)
    end.
Proof.
  unfold plus_minus. destruct (operator s) as [|c r] eqn:E; simpl.
  - exact E.
  - destruct (Ascii.eqb c "-"); fields; [apply slice_from_1_cons | reflexivity].
Qed.

(** C3 (as the code has it). [plus_minus] twice gives the buffer back
    exactly on the buffers that do not begin with ['-'] and on those that
    begin with a single ['-'] followed by some other character; on "-"
    and on a buffer with two leading ['-'] it does not. *)
Theorem plus_minus_twice (s : state) :
  operator (plus_minus (plus_minus s)) = operator s <->
  sign_toggles_back (operator s) = true.
Proof.
  rewrite !plus_minus_operator.
  destruct (operator s) as [|c r]; [now split|].
  destruct (Ascii.eqb_spec c "-") as [-> | ne].
  - destruct r as [|d r]; [now split|].
    destruct (Ascii.eqb_spec d "-") as [-> | ne'].
    + simpl. split; [|discriminate].
      intros E. apply (f_equal String.length) in E. simpl in E. lia.
    + split; [|reflexivity].
      intros _. unfold sign_toggles_back.
      destruct d as [[] [] [] [] [] [] [] []]; try reflexivity. now elim ne'.
  - cbn. split; [|reflexivity].
    intros _. unfold sign_toggles_back.
    destruct c as [[] [] [] [] [] [] [] []]; try reflexivity. now elim ne.
Qed.

(** C7. Whatever the memory register and the buffer hold, [clear_all] and
    [clear_entry] empty the buffer and leave the memory register as it
    was. *)
Theorem clears_keep_memory (m : pyobj) (b : string) (s : state) :
  let s0 := set_memory m (set_operator b s) in
  (memory (clear_all s0) = m /\ operator (clear_all s0) = "") /\
  (memory (clear_entry s0) = m /\ operator (clear_entry s0) = "").
Proof.
  now repeat split.
Qed.

(** C9. [backspace] on an empty buffer leaves it empty; on a buffer that
    ends with the character [c] it removes exactly that character. *)
Theorem backspace_drops_last (s : state) (b : string) (c : ascii) :
  operator (backspace (set_operator "" s)) = "" /\
  operator (backspace (set_operator (b ++ String c "") s)) = b.
Proof.
  fields. split; [reflexivity | apply slice_to_last_snoc].
Qed.

(** ** History *)

(** Splits on every test a handler makes, down to record fields. *)
Ltac branches :=
  fields;
  repeat (match goal with
          | |- context [match ?x with _ => _ end] =>
              lazymatch x with
              | context [match _ with _ => _ end] => fail
              | _ => destruct x eqn:?
              end
          end; fields);
  try reflexivity; try discriminate.

Lemma history_handle (e : event) (s : state) :
  history (handle e s) =
    (history s ++
     match evaluation e s with
     | Some brt => [entry_of brt]
     | None => []
     end)%list.
Proof.
  unfold evaluation, evaluates, entry_of.
  destruct e; branches; now rewrite ?app_nil_r.
Qed.

Lemma history_run (es : list event) (s : state) :
  history (run es s) = (history s ++ map entry_of (evaluations es s))%list.
Proof.
  revert s. induction es as [|e es IH]; intros s; simpl.
  - now rewrite app_nil_r.
  - rewrite IH, history_handle.
    destruct (evaluation e s) as [brt|]; simpl.
    + now rewrite <- app_assoc.
    + now rewrite app_nil_r.
Qed.

Lemma evaluation_text (e : event) (s : state) (b : string) (r : pyobj)
    (text : string) :
  evaluation e s = Some (b, r, text) ->
  b = operator s /\ py_eval b = Some r /\ py_str r = Some text.
Proof.
  unfold evaluation. destruct (evaluates e); [|discriminate].
  destruct (py_eval (operator s)) as [r'|] eqn:E; [|discriminate].
  destruct (py_str r') as [t'|] eqn:T; [|discriminate].
  intros [= <- <- <-]. now repeat split.
Qed.

Lemma evaluations_text (es : list event) (s : state) (b : string)
    (r : pyobj) (text : string) :
  In (b, r, text) (evaluations es s) -> py_str r = Some text.
Proof.
  revert s. induction es as [|e es IH]; intros s; simpl; [contradiction|].
  destruct (evaluation e s) as [[[b' r'] t']|] eqn:E; [|apply IH].
  intros [[= -> -> ->] | I]; [|now apply (IH _ I)].
  now apply evaluation_text in E.
Qed.

(** C4. From an empty history, a run with N successful evaluations leaves
    a history of length N whose i-th entry is the text "B = R", [B] the
    buffer at the i-th evaluation and [R] the text of its result.  An
    evaluation is successful when nothing in the [try] block of
    [calculate] raises: [eval] returns, and the result has a text. *)
Theorem history_records_evaluations (es : list event) (s : state) :
  history s = [] ->
  List.length (history (run es s)) = List.length (evaluations es s) /\
  forall i b r text,
    nth_error (evaluations es s) i = Some (b, r, text) ->
    nth_error (history (run es s)) i = Some (b ++ " = " ++ text) /\
    py_str r = Some text.
Proof.
  intros E. rewrite history_run, E. simpl. split.
  - apply length_map.
  - intros i b r text N. split.
    + rewrite nth_error_map, N. reflexivity.
    + apply nth_error_In in N. now apply evaluations_text in N.
Qed.

(** C8. No event modifies or removes a history entry: a handler leaves
    the history as it was or adds one entry at its end, and after any run
    the earlier history is still there, at the front. *)
Theorem history_append_only :
  (forall e s,
     history (handle e s) = history s \/
     exists entry, history (handle e s) = (history s ++ [entry])%list) /\
  (forall es s,
     exists more, history (run es s) = (history s ++ more)%list).
Proof.
  split.
  - intros e s. rewrite history_handle.
    destruct (evaluation e s) as [brt|].
    + right. now eexists.
    + left. apply app_nil_r.
  - intros es s. rewrite history_run. now eexists.
Qed.

(** C10. When the evaluation succeeds (nothing in the [try] block raises:
    [eval] returns [result], and [result] has a text), [calculate] puts
    that text into the buffer and [result] into [last_result]; what is
    appended next, [Ans] included, continues from that text. *)
Theorem calculate_keeps_result (s : state) (result : pyobj) (text : string) :
  py_eval (operator s) = Some result ->
  py_str result = Some text ->
  operator (calculate s) = text /\
  last_result (calculate s) = result /\
  display (calculate s) = Obj result /\
  operator (append_ans (calculate s)) = text ++ text /\
  forall tok, tok <> "%" ->
    operator (append_to_operator tok (calculate s)) = text ++ tok.
Proof.
  intros E T. rewrite (calculate_returns s result text E T). fields.
  rewrite T. fields.
  repeat split. intros tok ne.
  now destruct (String.eqb_spec tok "%").
Qed.

(** ** The memory register *)

Lemma memory_add_stores (s : state) (v a : pyobj) :
  current_value s = Some v ->
  py_add (memory s) v = Some a ->
  memory (memory_add s) = a /\ operator (memory_add s) = "".
Proof.
  intros C A. unfold memory_add. rewrite C. fields. rewrite A. fields.
  now destruct (py_str a).
Qed.

Lemma memory_subtract_stores (s : state) (v b : pyobj) :
  current_value s = Some v ->
  py_sub (memory s) v = Some b ->
  memory (memory_subtract s) = b /\ operator (memory_subtract s) = "".
Proof.
  intros C S. unfold memory_subtract. rewrite C. fields. rewrite S. fields.
  now destruct (py_str b).
Qed.

Lemma current_value_of_buffer (s : state) (v : pyobj) :
  (operator s = "" /\ v = py_zero) \/
  (operator s <> "" /\ py_eval (operator s) = Some v) ->
  current_value s = Some v.
Proof.
  unfold current_value. intros [[E ->] | [ne E]].
  - now rewrite E.
  - now rewrite (truthy_nonempty _ ne).
Qed.

(** C5. Whatever the buffer and the register hold: with [v] the value of
    the buffer (zero for an empty buffer), memory add stores [memory + v]
    and memory subtract stores [memory - v]; both leave the buffer empty,
    also when the buffer has no value, and then the register stays as it
    was; memory recall appends the text of the register to the buffer;
    memory clear stores zero. *)
Theorem memory_register_operations (s : state) :
  (forall v a,
     (operator s = "" /\ v = py_zero) \/
     (operator s <> "" /\ py_eval (operator s) = Some v) ->
     py_add (memory s) v = Some a ->
     memory (memory_add s) = a) /\
  (forall v b,
     (operator s = "" /\ v = py_zero) \/
     (operator s <> "" /\ py_eval (operator s) = Some v) ->
     py_sub (memory s) v = Some b ->
     memory (memory_subtract s) = b) /\
  (operator (memory_add s) = "" /\ operator (memory_subtract s) = "") /\
  (operator s <> "" -> py_eval (operator s) = None ->
     memory (memory_add s) = memory s /\
     memory (memory_subtract s) = memory s) /\
  (forall text,
     py_str (memory s) = Some text ->
     operator (memory_recall s) = operator s ++ text /\
     memory (memory_recall s) = memory s) /\
  memory (memory_clear s) = py_zero.
Proof.
  split; [|split; [|split; [|split; [|split]]]].
  - intros v a V A.
    now apply (memory_add_stores s v a (current_value_of_buffer s v V) A).
  - intros v b V S.
    now apply (memory_subtract_stores s v b (current_value_of_buffer s v V) S).
  - split; branches.
  - intros ne E.
    assert (C : current_value s = None).
    { unfold current_value. now rewrite (truthy_nonempty _ ne). }
    rewrite memory_add_raises, memory_subtract_raises by now left.
    now split.
  - intros text T. unfold memory_recall. fields. rewrite T. now split.
  - reflexivity.
Qed.

(** ** The angle mode *)

Lemma is_trig_names (func : string) :
  is_trig func = true <-> In func ["sin"; "cos"; "tan"].
Proof.
  unfold is_trig. simpl.
  destruct (String.eqb_spec func "sin") as [-> | n1]; [now split; auto|].
  destruct (String.eqb_spec func "cos") as [-> | n2]; [now split; auto|].
  destruct (String.eqb_spec func "tan") as [-> | n3]; [now split; auto|].
  simpl. split; [discriminate|].
  intros [E | [E | [E | []]]]; symmetry in E; contradiction.
Qed.

Lemma same_but_angle_handle (e : event) (s s' : state) :
  renders_trig e = false ->
  same_but_angle s s' ->
  same_but_angle (handle e s) (handle e s').
Proof.
  unfold same_but_angle. destruct s, s'. fields. intros R E.
  injection E as -> -> -> -> -> -> ->.
  destruct e; simpl in R; branches; congruence.
Qed.

(** C6. For [func] one of sin, cos, tan, [append_function] writes
    "deg_" + func + "(" into the buffer in degrees mode and
    "math." + func + "(" in radians mode.  Every event other than the
    function buttons sin, cos and tan ignores the angle mode: run from two
    states that differ only in the mode, it leaves two states that differ
    only in the mode. *)
Theorem angle_mode_only_renders_trig
    (func : string) (e : event) (s s' : state) :
  In func ["sin"; "cos"; "tan"] ->
  (forall f, e = Function f -> ~ In f ["sin"; "cos"; "tan"]) ->
  same_but_angle s s' ->
  operator (append_function func (set_angle_mode Deg s)) =
    operator s ++ "deg_" ++ func ++ "(" /\
  operator (append_function func (set_angle_mode Rad s)) =
    operator s ++ "math." ++ func ++ "(" /\
  same_but_angle (handle e s) (handle e s').
Proof.
  intros F R E.
  assert (T : is_trig func = true) by now apply is_trig_names.
  unfold append_function. fields. rewrite T. fields.
  repeat split. apply same_but_angle_handle; [|exact E].
  destruct e as [| f | | | | | | | | | | | | | |]; try reflexivity.
  simpl. destruct (is_trig f) eqn:Tf; [|reflexivity].
  apply is_trig_names in Tf. now elim (R f eq_refl).
Qed.

End Properties.

(** * The controller on the integer host *)

(** The Return key: Tk gives it the carriage return as [char]. *)
Example return_key_evaluates :
  evaluates (H := IntHost.host) (Key (String (ascii_of_nat 13) "") "Return") = true.
Proof. reflexivity. Qed.

(** A key without text, such as Shift, has the empty [char]; the empty
    string occurs in every string, so the key appends nothing. *)
Example empty_char_appends_nothing :
  operator (key_event "" "Shift_L" (IntHost.typed "12" 0)) = "12".
Proof. reflexivity. Qed.

Example memory_add_on_empty_buffer :
  memory (memory_add (IntHost.typed "" 10)) = 10%Z /\
  display (memory_add (IntHost.typed "" 10)) = Text "M: 10".
Proof. split; reflexivity. Qed.

Example plus_minus_on_single_sign :
  operator (plus_minus (plus_minus (IntHost.typed "-" 0))) = "".
Proof. reflexivity. Qed.


(** C2 as amended, at the key ['7'] after "12". *)
Lemma append_extends_buffer_witness :
  In "7" input_alphabet /\
  operator (append_to_operator "7" (IntHost.typed "12" 0)) = "127".
Proof.
  assert (I : In "7" input_alphabet) by (do 7 right; left; reflexivity).
  split; [exact I|].
  apply (append_extends_buffer "7" (IntHost.typed "12" 0) I). discriminate.
Defined.

(** C2 as stated fails at ['%']: after "50" the buffer is "50/100", not
    "50%". *)
Lemma append_percent_writes_division :
  In "%" input_alphabet /\
  operator (append_to_operator "%" (IntHost.typed "50" 0)) = "50/100" /\
  operator (append_to_operator "%" (IntHost.typed "50" 0)) <> "50" ++ "%".
Proof.
  split; [do 17 right; left; reflexivity | split; [reflexivity | discriminate]].
Qed.

(** C3 as stated fails at "--5": the two toggles strip both signs. *)
Lemma plus_minus_twice_loses_signs :
  operator (plus_minus (IntHost.typed "--5" 0)) = "-5" /\
  operator (plus_minus (plus_minus (IntHost.typed "--5" 0))) = "5" /\
  operator (plus_minus (plus_minus (IntHost.typed "--5" 0))) <> "--5".
Proof.
  repeat split; discriminate.
Qed.

(** C4 on the keys 1 + 2 = * 4 Return. *)
Lemma history_records_evaluations_witness :
  history (init (H := IntHost.host)) = [] /\
  List.length
    (history
       (run [Press "1"; Press "+"; Press "2"; Equals; Press "*"; Press "4";
             Key (String (ascii_of_nat 13) "") "Return"]
          (init (H := IntHost.host)))) = 2 /\
  nth_error
    (history
       (run [Press "1"; Press "+"; Press "2"; Equals; Press "*"; Press "4";
             Key (String (ascii_of_nat 13) "") "Return"]
          (init (H := IntHost.host)))) 1 = Some "3*4 = 12".
Proof.
  destruct (history_records_evaluations
              [Press "1"; Press "+"; Press "2"; Equals; Press "*"; Press "4";
               Key (String (ascii_of_nat 13) "") "Return"]
              (init (H := IntHost.host)) eq_refl) as [L N].
  split; [reflexivity | split; [exact L|]].
  exact (proj1 (N 1 "3*4" 12%Z "12" eq_refl)).
Defined.

(** C5 with "2*3" in the buffer and 10 in the register. *)
Lemma memory_register_operations_witness :
  @py_eval IntHost.host "2*3" = Some 6%Z /\
  (memory (memory_add (IntHost.typed "2*3" 10)) = 16%Z /\
   operator (memory_add (IntHost.typed "2*3" 10)) = "") /\
  (memory (memory_subtract (IntHost.typed "2*3" 10)) = 4%Z /\
   operator (memory_subtract (IntHost.typed "2*3" 10)) = "") /\
  operator (memory_recall (IntHost.typed "2*3" 10)) = "2*310" /\
  memory (memory_clear (IntHost.typed "2*3" 10)) = 0%Z.
Proof.
  destruct (memory_register_operations (IntHost.typed "2*3" 10))
    as (A & S & (EA & ES) & _ & R & C).
  assert (V : ("2*3" = "" /\ 6%Z = 0%Z) \/
              ("2*3" <> "" /\ IntHost.eval "2*3" = Some 6%Z))
    by (right; split; [discriminate | reflexivity]).
  exact (conj eq_refl
           (conj (conj (A 6%Z 16%Z V eq_refl) EA)
              (conj (conj (S 6%Z 4%Z V eq_refl) ES)
                 (conj (proj1 (R "10" eq_refl)) C)))).
Defined.

(** C6 with "2*" in the buffer, for sin and, as the other event, the ln
    button. *)
Lemma angle_mode_only_renders_trig_witness :
  In "sin" ["sin"; "cos"; "tan"] /\
  (forall f, Function (H := IntHost.host) "ln" = Function f ->
             ~ In f ["sin"; "cos"; "tan"]) /\
  same_but_angle (IntHost.typed "2*" 0)
                 (set_angle_mode Deg (IntHost.typed "2*" 0)) /\
  operator (append_function "sin" (set_angle_mode Deg (IntHost.typed "2*" 0)))
    = "2*deg_sin(" /\
  operator (append_function "sin" (set_angle_mode Rad (IntHost.typed "2*" 0)))
    = "2*math.sin(" /\
  same_but_angle
    (handle (Function "ln") (IntHost.typed "2*" 0))
    (handle (Function "ln") (set_angle_mode Deg (IntHost.typed "2*" 0))).
Proof.
  assert (I : In "sin" ["sin"; "cos"; "tan"]) by (left; reflexivity).
  assert (N : forall f, Function (H := IntHost.host) "ln" = Function f ->
                        ~ In f ["sin"; "cos"; "tan"]).
  { intros f E. injection E as <-.
    intros [D | [D | [D | []]]]; discriminate D. }
  assert (E : same_but_angle (IntHost.typed "2*" 0)
                (set_angle_mode Deg (IntHost.typed "2*" 0))) by reflexivity.
  split; [exact I | split; [exact N | split; [exact E|]]].
  exact (angle_mode_only_renders_trig "sin" (Function "ln") _ _ I N E).
Defined.

(** C10 at the buffer "1+2". *)
Lemma calculate_keeps_result_witness :
  @py_eval IntHost.host "1+2" = Some 3%Z /\
  operator (calculate (IntHost.typed "1+2" 0)) = "3" /\
  last_result (calculate (IntHost.typed "1+2" 0)) = 3%Z /\
  operator (append_ans (calculate (IntHost.typed "1+2" 0))) = "33" /\
  operator (append_to_operator "*" (calculate (IntHost.typed "1+2" 0))) = "3*".
Proof.
  destruct (calculate_keeps_result (IntHost.typed "1+2" 0) 3%Z "3"
              eq_refl eq_refl)
    as (B & L & _ & A & T).
  assert (ne : "*" <> "%") by discriminate.
  exact (conj eq_refl (conj B (conj L (conj A (T "*" ne))))).
Defined.


(** * Further properties of the handlers *)

Lemma last_cons {A : Type} (x : A) (l : list A) (d : A) :
  last (x :: l) d = last l x.
Proof.
  revert x d. induction l as [|y l IH]; intros x d; [reflexivity|].
  change (last (x :: y :: l) d) with (last (y :: l) d).
  now rewrite !IH.
Qed.

Lemma prefix_same (a : string) : prefix a a = true.
Proof.
  rewrite <- (append_empty_r a) at 2. apply prefix_append.
Qed.

Lemma single_char_is_percent (c : ascii) :
  (String c "" =? "%") = Ascii.eqb c "%".
Proof.
  simpl. now destruct (Ascii.eqb c "%").
Qed.

Section Frames.

Context {H : Host}.

Ltac fields :=
  unfold handle, key_event, calculate, memory_add, memory_subtract,
    memory_clear, memory_recall, plus_minus, append_to_operator,
    append_function, append_constant, append_ans, clear_all, clear_entry,
    backspace, toggle_mode, toggle_angle_mode, on_error, echo, current_value,
    history_entry, Try.try_except, Try.callback, Try.call, Try.bind, Try.ret,
    set_operator, set_memory, set_last_result, set_history, set_angle_mode,
    set_full_mode, set_display, set_history_list;
  cbn [operator memory last_result history angle_mode full_mode display
       history_list].

Ltac branches :=
  fields;
  repeat (match goal with
          | |- context [match ?x with _ => _ end] =>
              lazymatch x with
              | context [match _ with _ => _ end] => fail
              | _ => destruct x eqn:?
              end
          end; fields);
  try reflexivity; try discriminate.

(** X1. One backspace takes back a typed character, except for ['%']: the
    key wrote "/100", and the backspace leaves "/10" behind. *)
Theorem backspace_after_key (c : ascii) (s : state) :
  operator (backspace (append_to_operator (String c "") s)) =
    if Ascii.eqb c "%" then operator s ++ "/10" else operator s.
Proof.
  fields. rewrite single_char_is_percent.
  destruct (Ascii.eqb c "%"); fields.
  - change "/100" with ("/10" ++ "0"). rewrite <- append_assoc.
    apply slice_to_last_snoc.
  - apply slice_to_last_snoc.
Qed.

(** X2. The appending events (a key or button of the input alphabet, a
    function, a constant, Ans, memory recall) keep the buffer they find as
    a prefix of the buffer they leave. *)
Theorem appending_events_extend (e : event) (s : state) :
  appends e = true ->
  prefix (operator s) (operator (handle e s)) = true.
Proof.
  intros A. destruct e; simpl in A; try discriminate;
    branches; try congruence;
    first [apply prefix_append | apply prefix_same].
Qed.

(** X3. Only the angle toggle changes the angle mode: it flips it, every
    other event (keys included) keeps it; two toggles give the state
    back. *)
Theorem angle_mode_changes_by_toggle_only (e : event) (s : state) :
  angle_mode (handle e s) =
    match e with
    | ToggleAngle => flip (angle_mode s)
    | _ => angle_mode s
    end /\
  toggle_angle_mode (toggle_angle_mode s) = s.
Proof.
  split.
  - destruct e; branches.
  - destruct s as [o m l h a f d hl]. now destruct a.
Qed.

(** X4. Only the mode switch changes [full_mode]: it negates it, every
    other event keeps it; two switches give the state back. *)
Theorem full_mode_changes_by_toggle_only (e : event) (s : state) :
  full_mode (handle e s) =
    match e with
    | ToggleMode => negb (full_mode s)
    | _ => full_mode s
    end /\
  toggle_mode (toggle_mode s) = s.
Proof.
  split.
  - destruct e; branches.
  - destruct s as [o m l h a f d hl]. fields. now rewrite negb_involutive.
Qed.

Lemma memory_handle (e : event) (s : state) :
  assigns_memory e = false -> memory (handle e s) = memory s.
Proof.
  intros A. destruct e; simpl in A; try discriminate; branches.
Qed.

(** X5. The memory register survives every run that contains no memory
    clear, memory add or memory subtract: evaluation, errors, clears, the
    toggles and the keyboard never assign it. *)
Theorem memory_kept_by_other_events (es : list event) (s : state) :
  forallb (fun e => negb (assigns_memory e)) es = true ->
  memory (run es s) = memory s.
Proof.
  revert s. induction es as [|e es IH]; intros s A; [reflexivity|].
  simpl in A. apply andb_true_iff in A as [A1 A2].
  simpl. rewrite (IH _ A2). apply memory_handle.
  now apply negb_true_iff.
Qed.

Lemma last_result_handle (e : event) (s : state) :
  last_result (handle e s) =
    match returned e s with
    | Some result => result
    | None => last_result s
    end.
Proof.
  unfold returned, evaluates. destruct e; branches.
Qed.

(** X6. After any run, [last_result] is the object [eval] last returned to
    [calculate] (the = button or the Return key) in the run, and the value
    it had before when there was none.  It is assigned as soon as [eval]
    returns, also when the evaluation then ends in "Error" because the
    result has no text; an [eval] that raises, and the evaluations of the
    memory handlers, never assign it. *)
Theorem last_result_is_last_returned (es : list event) (s : state) :
  last_result (run es s) = last (all_returned es s) (last_result s).
Proof.
  revert s. induction es as [|e es IH]; intros s; [reflexivity|].
  simpl. rewrite IH, last_result_handle.
  destruct (returned e s) as [result|]; [|reflexivity].
  now rewrite last_cons.
Qed.


End Frames.

(** ** The keyboard *)

Lemma lower_is_c (keysym : string) :
  (lower keysym =? "c") = ((keysym =? "c") || (keysym =? "C")).
Proof.
  destruct keysym as [|a [|b r]].
  - reflexivity.
  - destruct a as [[] [] [] [] [] [] [] []]; reflexivity.
  - simpl.
    repeat match goal with
           | |- context [Ascii.eqb ?x ?y] => destruct (Ascii.eqb x y)
           end; reflexivity.
Qed.

Section Keyboard.

Context {H : Host}.

Lemma set_operator_same (s : state) : set_operator (operator s) s = s.
Proof. now destruct s. Qed.

(** X8. A key event without text (a modifier or an arrow key: [char] is
    the empty string, which occurs in every string) is taken for input
    whatever its keysym: it appends nothing and writes the buffer to the
    display again, replacing a shown result or message. *)
Theorem key_without_text_echoes (keysym : string) (s : state) :
  key_event "" keysym s = set_display (Text (operator s)) s.
Proof.
  unfold key_event. simpl str_in. cbv iota.
  unfold append_to_operator. simpl String.eqb. cbv iota.
  now rewrite append_empty_r, set_operator_same.
Qed.


(** X10. A key whose text is no input and whose keysym is neither Return
    nor BackSpace clears the calculator when the keysym is "c" or "C" and
    changes nothing otherwise. *)
Theorem other_keys_clear_or_do_nothing (char keysym : string) (s : state) :
  str_in char "0123456789.+-*/()%" = false ->
  keysym <> "Return" ->
  keysym <> "BackSpace" ->
  key_event char keysym s =
    if (keysym =? "c") || (keysym =? "C") then clear_all s else s.
Proof.
  intros A R B. unfold key_event. rewrite A, lower_is_c.
  apply String.eqb_neq in R, B. now rewrite R, B.
Qed.

End Keyboard.

(** ** The list box, the display and the widgets *)

Section Surfaces.

Context {H : Host}.

Variables math_pi math_e : pyobj.

Ltac fields :=
  unfold handle, key_event, calculate, memory_add, memory_subtract,
    memory_clear, memory_recall, plus_minus, append_to_operator,
    append_function, append_constant, append_ans, clear_all, clear_entry,
    backspace, toggle_mode, toggle_angle_mode, on_error, echo, current_value,
    history_entry, Try.try_except, Try.callback, Try.call, Try.bind, Try.ret,
    set_operator, set_memory, set_last_result, set_history, set_angle_mode,
    set_full_mode, set_display, set_history_list;
  cbn [operator memory last_result history angle_mode full_mode display
       history_list].

Ltac branches :=
  fields;
  repeat (match goal with
          | |- context [match ?x with _ => _ end] =>
              lazymatch x with
              | context [match _ with _ => _ end] => fail
              | _ => destruct x eqn:?
              end
          end; fields);
  try reflexivity; try discriminate.

Lemma full_mode_handle (e : event) (s : state) :
  is_toggle_mode e = false -> full_mode (handle e s) = full_mode s.
Proof.
  intros T. destruct e; simpl in T; try discriminate; branches.
Qed.

Lemma history_list_handle (e : event) (s : state) :
  history_list (handle e s) =
    if full_mode s then
      (history_list s ++
       match evaluation e s with
       | Some brt => [entry_of brt]
       | None => []
       end)%list
    else history_list s.
Proof.
  unfold evaluation, evaluates, entry_of.
  destruct e; branches; now rewrite ?app_nil_r.
Qed.

(** X11. As long as the mode is not switched, the list box follows the
    mode the run started in: in full mode it receives the entry of every
    successful evaluation (nothing in the [try] block of [calculate]
    raises), the same text [self.history] receives; in compact mode it
    receives none, while [self.history] still grows. *)
Theorem history_list_follows_mode (es : list event) (s : state) :
  forallb (fun e => negb (is_toggle_mode e)) es = true ->
  history_list (run es s) =
    (if full_mode s then
       (history_list s ++ map entry_of (evaluations es s))%list
     else history_list s) /\
  history (run es s) =
    (history s ++ map entry_of (evaluations es s))%list.
Proof.
  intros T. split; [|apply history_run].
  revert s. induction es as [|e es IH]; intros s.
  - simpl. destruct (full_mode s); now rewrite ?app_nil_r.
  - simpl in T. apply andb_true_iff in T as [T1 T2].
    apply negb_true_iff in T1.
    simpl. rewrite (IH T2), (full_mode_handle e s T1), history_list_handle.
    destruct (full_mode s); [|reflexivity].
    destruct (evaluation e s) as [brt|]; simpl.
    + now rewrite <- app_assoc.
    + now rewrite app_nil_r.
Qed.

Lemma display_accounted_handle (e : event) (s : state) :
  display_accounted s -> display_accounted (handle e s).
Proof.
  intros I. destruct e; branches;
    unfold display_accounted in *;
    cbn [operator memory last_result display] in *;
    solve [ assumption
          | left; reflexivity
          | right; left; split; [reflexivity | assumption]
          | right; right; left; split; reflexivity
          | right; right; right; left; eexists;
            split; [eassumption | split; reflexivity]
          | right; right; right; right; split; reflexivity ].
Qed.

(** X12. Whatever the user does from start, the display shows the buffer,
    or the last result while its text is the buffer, or "Error" or the
    text of the memory register after "M: " while the buffer is empty, or
    "Memory Cleared" while the register is zero. *)
Theorem display_always_accounted (es : list event) :
  display_accounted (run es init).
Proof.
  assert (G : forall s, display_accounted s -> display_accounted (run es s)).
  { induction es as [|e es IH]; intros s I; [exact I|].
    simpl. apply IH. now apply display_accounted_handle. }
  apply G. now left.
Qed.

(** X13. Every button the advanced panel creates is given a command: no
    text of the layout falls through the chain of comparisons. *)
Theorem advanced_buttons_all_bound (char : string) :
  In char (created adv_buttons) ->
  exists e, advanced_command math_pi math_e char = Some e.
Proof.
  intros I. cbv [created adv_buttons concat app filter] in I. simpl in I.
  repeat (destruct I as [<- | I]; [eexists; reflexivity|]).
  contradiction.
Qed.

Lemma window_run_state (es : list event) (u : window) :
  fst (window_run es u) = run es (fst u).
Proof.
  revert u. induction es as [|e es IH]; intros [s w]; [reflexivity|].
  simpl window_run. rewrite IH. cbn [run fst]. f_equal.
  destruct e; try reflexivity.
  - unfold window_handle, window_toggle_mode. cbn [fst handle].
    now destruct (full_mode (toggle_mode s)).
  - unfold window_handle, window_toggle_angle_mode. cbn [fst handle].
    unfold toggle_angle_mode. now destruct (angle_mode s).
Qed.

Lemma angle_mode_window_handle (e : event) (u : window) :
  advanced_texts (snd u) =
    retext_first (angle_text (angle_mode (fst u))) (created adv_buttons) ->
  advanced_texts (snd (window_handle e u)) =
    retext_first (angle_text (angle_mode (fst (window_handle e u))))
      (created adv_buttons).
Proof.
  destruct u as [s w]. cbn [fst snd]. intros I.
  destruct e; cbn [window_handle fst snd];
    try (rewrite I; f_equal; f_equal; symmetry; branches).
  - (* ToggleMode *)
    unfold window_toggle_mode.
    destruct (full_mode (toggle_mode s)); cbn [fst snd advanced_texts];
      rewrite I; reflexivity.
  - (* ToggleAngle *)
    unfold window_toggle_angle_mode.
    destruct (angle_mode s); cbn [fst snd advanced_texts angle_mode set_angle_mode];
      rewrite I; reflexivity.
Qed.

(** X14. After any run from start, the texts of the advanced panel's
    buttons are those of the layout, except that the angle button names the
    current angle mode ("Rad" in radians, "Deg" in degrees): the toggle
    relabels that button and no other. *)
Theorem angle_button_names_mode (es : list event) :
  advanced_texts (snd (window_run es init_window)) =
    [ "MC"; "MR"; "M+"; "M-"; "CE"; "C"; "⌫";
      angle_text (angle_mode (run es init));
      "sin"; "cos"; "tan"; "%"; "ln"; "exp"; "√"; "Ans"; "π"; "e" ].
Proof.
  assert (G : forall u,
             advanced_texts (snd u) =
               retext_first (angle_text (angle_mode (fst u)))
                 (created adv_buttons) ->
             advanced_texts (snd (window_run es u)) =
               retext_first (angle_text (angle_mode (fst (window_run es u))))
                 (created adv_buttons)).
  { induction es as [|e es IH]; intros u I; [exact I|].
    simpl. apply IH. now apply angle_mode_window_handle. }
  rewrite (G init_window eq_refl), window_run_state.
  change (fst init_window) with init.
  now destruct (angle_mode (run es init)).
Qed.

Lemma layout_window_handle (e : event) (u : window) :
  let shows (u : window) :=
    (advanced_column (snd u), basic_column (snd u), history_packed (snd u),
     mode_toggle_text (snd u)) =
    if full_mode (fst u)
    then (Some 0, Some 1, true, "Switch to Compact Mode")
    else (None, Some 0, false, "Switch to Full Mode") in
  shows u -> shows (window_handle e u).
Proof.
  destruct u as [s w]. cbn [fst snd]. intros I.
  destruct e; cbn [window_handle fst snd];
    try (rewrite I; symmetry;
         match goal with
         | |- (if ?a then _ else _) = (if ?b then _ else _) =>
             replace a with b; [reflexivity | symmetry; branches]
         end).
  - unfold window_toggle_mode.
    destruct (full_mode (toggle_mode s)) eqn:F; cbn [fst snd]; rewrite F;
      reflexivity.
  - unfold window_toggle_angle_mode.
    destruct (angle_mode s);
      cbn [fst snd advanced_column basic_column history_packed
           mode_toggle_text full_mode set_angle_mode];
      exact I.
Qed.

(** X15. After any run from start, the layout is that of the current mode:
    in full mode the advanced panel is in column 0, the basic panel in
    column 1, the history frame is packed and the switch reads "Switch to
    Compact Mode"; in compact mode the advanced panel is off the grid, the
    basic panel is in column 0, the history frame is unpacked and the
    switch reads "Switch to Full Mode". *)
Theorem layout_follows_full_mode (es : list event) :
  (advanced_column (snd (window_run es init_window)),
   basic_column (snd (window_run es init_window)),
   history_packed (snd (window_run es init_window)),
   mode_toggle_text (snd (window_run es init_window))) =
  if full_mode (run es init)
  then (Some 0, Some 1, true, "Switch to Compact Mode")
  else (None, Some 0, false, "Switch to Full Mode").
Proof.
  change (run es init) with (run es (fst init_window)).
  rewrite <- (window_run_state es init_window).
  generalize (eq_refl :
    (advanced_column (snd init_window), basic_column (snd init_window),
     history_packed (snd init_window), mode_toggle_text (snd init_window)) =
    if full_mode (fst init_window)
    then (Some 0, Some 1, true, "Switch to Compact Mode")
    else (None, Some 0, false, "Switch to Full Mode")).
  generalize init_window as u.
  induction es as [|e es IH]; intros u I; [exact I|].
  simpl. apply IH. now apply layout_window_handle.
Qed.

End Surfaces.

(** * The further properties on concrete hosts *)

(** X2 for the ln button after "2*". *)
Lemma appending_events_extend_witness :
  appends (H := IntHost.host) (Function "ln") = true /\
  prefix "2*" (operator (handle (Function "ln") (IntHost.typed "2*" 0))) = true.
Proof.
  split; [reflexivity|].
  exact (appending_events_extend (Function "ln") (IntHost.typed "2*" 0) eq_refl).
Defined.

(** X5 with 7 in the register: typing, evaluating, an error and a clear. *)
Lemma memory_kept_by_other_events_witness :
  forallb (fun e => negb (assigns_memory (H := IntHost.host) e))
    [Press "1"; Press "+"; Press "2"; Equals; Press "/"; Press "0"; Equals;
     ClearAll; Key "c" "c"] = true /\
  memory
    (run [Press "1"; Press "+"; Press "2"; Equals; Press "/"; Press "0";
          Equals; ClearAll; Key "c" "c"] (IntHost.typed "" 7)) = 7%Z.
Proof.
  split; [reflexivity|].
  exact (memory_kept_by_other_events
           [Press "1"; Press "+"; Press "2"; Equals; Press "/"; Press "0";
            Equals; ClearAll; Key "c" "c"] (IntHost.typed "" 7) eq_refl).
Defined.



(** X10 for the keys x and C after "12". *)
Lemma other_keys_clear_or_do_nothing_witness :
  str_in "x" "0123456789.+-*/()%" = false /\
  key_event "x" "x" (IntHost.typed "12" 0) = IntHost.typed "12" 0 /\
  key_event "C" "C" (IntHost.typed "12" 0) = clear_all (IntHost.typed "12" 0).
Proof.
  assert (R : forall k : string, k = "x" \/ k = "C" -> k <> "Return")
    by (intros k [-> | ->]; discriminate).
  assert (B : forall k : string, k = "x" \/ k = "C" -> k <> "BackSpace")
    by (intros k [-> | ->]; discriminate).
  split; [reflexivity | split].
  - exact (other_keys_clear_or_do_nothing "x" "x" (IntHost.typed "12" 0)
             eq_refl (R _ (or_introl eq_refl)) (B _ (or_introl eq_refl))).
  - exact (other_keys_clear_or_do_nothing "C" "C" (IntHost.typed "12" 0)
             eq_refl (R _ (or_intror eq_refl)) (B _ (or_intror eq_refl))).
Defined.

(** X11 in compact mode: 1 + 2 = reaches the history, not the list box. *)
Lemma history_list_follows_mode_witness :
  forallb (fun e => negb (is_toggle_mode (H := IntHost.host) e))
    [Press "1"; Press "+"; Press "2"; Equals] = true /\
  history_list
    (run [Press "1"; Press "+"; Press "2"; Equals]
       (toggle_mode (init (H := IntHost.host)))) = [] /\
  history
    (run [Press "1"; Press "+"; Press "2"; Equals]
       (toggle_mode (init (H := IntHost.host)))) = ["1+2 = 3"].
Proof.
  split; [reflexivity|].
  exact (history_list_follows_mode [Press "1"; Press "+"; Press "2"; Equals]
           (toggle_mode (init (H := IntHost.host))) eq_refl).
Defined.

(** X13 for the square root button (the integer host has no floats: the
    two constants are instantiated with integers, which the button does not
    use). *)
Lemma advanced_buttons_all_bound_witness :
  In "√" (created adv_buttons) /\
  exists e, advanced_command (H := IntHost.host) 3%Z 2%Z "√" = Some e.
Proof.
  assert (I : In "√" (created adv_buttons))
    by (do 14 right; left; reflexivity).
  exact (conj I (advanced_buttons_all_bound (H := IntHost.host) 3%Z 2%Z "√" I)).
Defined.
